(** * Train delay model training notebook (03_train_model.ipynb)

    A shallow embedding of the feature builder [create_features], the
    route [LabelEncoder], the evaluator [evaluate_model], the model
    selection cell, the metadata record [feature_info] and
    [make_sample_prediction].

    Modelling conventions:
    - pandas / numpy float64 values are idealised as real numbers [R];
      a float64 cell that may hold NaN is an [option R] ([None] = NaN);
    - Python strings are Rocq [string]s holding their UTF-8 bytes; the
      bytewise order [String.compare] coincides with Python's code point
      order on well-formed UTF-8;
    - a Python dict with string keys is an association list. *)

From Stdlib Require Import List String Ascii ZArith Bool Lia.
From Stdlib Require Import Reals Lra.
From Stdlib Require Import Sorting.Sorted Permutation.
Import ListNotations.

Open Scope string_scope.

(** ** Python string order *)

Module PyStr.

(** [sorted] on Python strings: insertion sort with [<=]. *)
Fixpoint insert (x : string) (l : list string) : list string :=
  match l with
  | [] => [x]
  | y :: l' => if String.leb x y then x :: y :: l' else y :: insert x l'
  end.

Fixpoint sorted (l : list string) : list string :=
  match l with
  | [] => []
  | x :: l' => insert x (sorted l')
  end.

(** The order [sorted] sorts by. *)
Definition le (a b : string) : Prop := String.leb a b = true.

(** [set(values)]: the distinct values (a Python set has no order of its
    own; every use here sorts it). *)
Definition set (l : list string) : list string := nodup string_dec l.

(** [np.unique] / [sorted(set(values))]. *)
Definition unique (l : list string) : list string := sorted (set l).

End PyStr.

(** ** sklearn's [LabelEncoder] *)

Module LabelEncoder.

Record label_encoder := mk_label_encoder { classes_ : list string }.

(** Position of a value in [classes_]; [None] for an unseen label. *)
Fixpoint index_of (k : string) (l : list string) : option nat :=
  match l with
  | [] => None
  | y :: l' =>
      if String.eqb k y then Some 0%nat
      else option_map S (index_of k l')
  end.

(** [fit]: [classes_ = _unique(y)], i.e. [sorted(set(y))]. *)
Definition fit (y : list string) : label_encoder :=
  mk_label_encoder (PyStr.unique y).

(** [transform]: the table [{val: i for i, val in enumerate(classes_)}];
    an unseen label raises [ValueError], modelled as [None]. *)
Fixpoint transform (le : label_encoder) (y : list string) : option (list nat) :=
  match y with
  | [] => Some []
  | k :: y' =>
      match index_of k (classes_ le), transform le y' with
      | Some i, Some is => Some (i :: is)
      | _, _ => None
      end
  end.

(** [fit_transform]: fit, then the inverse indices of [y]. *)
Definition fit_transform (y : list string) : option (label_encoder * list nat) :=
  let le := fit y in
  match transform le y with
  | Some codes => Some (le, codes)
  | None => None
  end.

End LabelEncoder.

(** The encoding cell:
<<
label_encoders = {}
categorical_columns = ['route']
for col in categorical_columns:
    le = LabelEncoder()
    X[col] = le.fit_transform(X[col].astype(str))
    label_encoders[f'{col}_encoder'] = le
>>
    With the single categorical column this yields the encoded route
    column and the dict [{'route_encoder': le}]. *)
Definition encode_routes (routes : list string)
  : option (list nat * list (string * LabelEncoder.label_encoder)) :=
  match LabelEncoder.fit_transform routes with
  | Some (le, codes) => Some (codes, [("route_encoder", le)])
  | None => None
  end.

(** Lookup in a Python dict with string keys ([KeyError] as [None]). *)
Fixpoint dict_get {A : Type} (k : string) (d : list (string * A)) : option A :=
  match d with
  | [] => None
  | (k', v) :: d' => if String.eqb k k' then Some v else dict_get k d'
  end.

(** [joblib.dump(label_encoders, 'encoders.pkl')] followed by
    [joblib.load('encoders.pkl')]: pickling restores an equal object,
    so the persisted artifact holds the dict as it was saved. *)
Definition persisted_encoders (label_encoders : list (string * LabelEncoder.label_encoder))
  : list (string * LabelEncoder.label_encoder) := label_encoders.

(** ** Records loaded by the SQL query *)

Module Features.

Open Scope R_scope.

(** One row of [pd.read_sql(query, conn)]. *)
Record departure := mk_departure {
  train_signature_code : string;
  from_station : string;
  to_station : string;
  hour : Z;
  delay : R;
  from_lat : R;
  from_long : R;
  to_lat : R;
  to_long : R
}.

(** A float64 cell that may hold NaN. *)
Definition f64 := option R.

(** [df.fillna(v)] on one cell. *)
Definition fillna (v : R) (x : f64) : R :=
  match x with Some r => r | None => v end.

Definition sum (xs : list R) : R := fold_right Rplus 0 xs.

(** ** [create_features], column by column *)

(** [df['route'] = df['from_station'] + '_' + df['to_station']] *)
Definition route_of (d : departure) : string :=
  (from_station d ++ "_" ++ to_station d)%string.

(** [np.sin(2 * np.pi * df['hour'] / 24)] and its cosine. *)
Definition hour_sin_of (h : Z) : R := sin (2 * PI * IZR h / 24).
Definition hour_cos_of (h : Z) : R := cos (2 * PI * IZR h / 24).

(** [np.sqrt((to_lat - from_lat)**2 + (to_long - from_long)**2) * 111] *)
Definition route_distance_of (d : departure) : R :=
  sqrt ((to_lat d - from_lat d) ^ 2 + (to_long d - from_long d) ^ 2) * 111.

(** [((h >= 7) & (h <= 9)) | ((h >= 17) & (h <= 19))] *)
Definition is_rush_hour_of (h : Z) : bool :=
  ((7 <=? h)%Z && (h <=? 9)%Z) || ((17 <=? h)%Z && (h <=? 19)%Z).

(** [(h <= 6) | (h >= 22)] *)
Definition is_night_of (h : Z) : bool := (h <=? 6)%Z || (22 <=? h)%Z.

(** The frame after the first three assignments of [create_features]. *)
Record pre_row := mk_pre_row {
  pr_dep : departure;
  pr_route : string;
  pr_hour_sin : R;
  pr_hour_cos : R;
  pr_route_distance : R
}.

Definition pre_of (d : departure) : pre_row :=
  mk_pre_row d (route_of d) (hour_sin_of (hour d)) (hour_cos_of (hour d))
    (route_distance_of d).

(** [df.groupby('route')['delay']]: the delays of one group. *)
Definition group_delays (rows : list pre_row) (r : string) : list R :=
  map (fun p => delay (pr_dep p))
    (filter (fun p => String.eqb (pr_route p) r) rows).

(** pandas' [mean]: NaN on an empty group. *)
Definition agg_mean (xs : list R) : f64 :=
  match xs with
  | [] => None
  | _ => Some (sum xs / INR (List.length xs))
  end.

(** pandas' [std] (ddof = 1): NaN when the group has fewer than two
    values. *)
Definition agg_std (xs : list R) : f64 :=
  if (List.length xs <=? 1)%nat then None
  else
    let m := sum xs / INR (List.length xs) in
    Some (sqrt (sum (map (fun x => (x - m) ^ 2) xs) / INR (List.length xs - 1))).

(** One row of [route_stats] after
    [route_stats.columns = ['route', 'route_avg_delay', 'route_std_delay', 'route_count']]. *)
Record route_stat := mk_route_stat {
  rs_route : string;
  rs_avg : f64;
  rs_std : f64;
  rs_count : nat
}.

(** [df.groupby('route')['delay'].agg(['mean', 'std', 'count']).reset_index()]:
    one row per group, groups in sorted key order. *)
Definition stat_of (rows : list pre_row) (r : string) : route_stat :=
  let xs := group_delays rows r in
  mk_route_stat r (agg_mean xs) (agg_std xs) (List.length xs).

Definition route_stats (rows : list pre_row) : list route_stat :=
  map (stat_of rows) (PyStr.unique (map pr_route rows)).

(** [df.merge(route_stats, on='route', how='left')]: every left row, in
    order, paired with each matching right row, or with NaNs when none
    matches. *)
Definition merge_left (rows : list pre_row) (stats : list route_stat)
  : list (pre_row * option route_stat) :=
  flat_map (fun p =>
    match filter (fun s => String.eqb (rs_route s) (pr_route p)) stats with
    | [] => [(p, None)]
    | ms => map (fun s => (p, Some s)) ms
    end) rows.

(** A row of [df_features]. *)
Record feature_row := mk_feature_row {
  fr_dep : departure;
  fr_route : string;
  fr_hour_sin : R;
  fr_hour_cos : R;
  fr_route_distance : R;
  fr_route_avg_delay : f64;
  fr_route_std_delay : R;
  fr_route_count : f64;
  fr_is_rush_hour : bool;
  fr_is_night : bool
}.

(** The remaining assignments: [fillna(0)] on [route_std_delay] and the
    two indicators. *)
Definition finish (m : pre_row * option route_stat) : feature_row :=
  let (p, os) := m in
  let h := hour (pr_dep p) in
  mk_feature_row (pr_dep p) (pr_route p) (pr_hour_sin p) (pr_hour_cos p)
    (pr_route_distance p)
    (match os with Some s => rs_avg s | None => None end)
    (fillna 0 (match os with Some s => rs_std s | None => None end))
    (match os with Some s => Some (INR (rs_count s)) | None => None end)
    (is_rush_hour_of h) (is_night_of h).

Definition create_features (df : list departure) : list feature_row :=
  let rows := map pre_of df in
  map finish (merge_left rows (route_stats rows)).

End Features.

(** ** [evaluate_model] and the selection cell *)

Module Evaluate.

Import Features.
Open Scope R_scope.

Definition sq_errors (y_true y_pred : list R) : list R :=
  map (fun '(a, b) => (a - b) ^ 2) (combine y_true y_pred).

(** [mean_squared_error] *)
Definition mean_squared_error (y_true y_pred : list R) : R :=
  sum (sq_errors y_true y_pred) / INR (List.length y_true).

(** [mean_absolute_error] *)
Definition mean_absolute_error (y_true y_pred : list R) : R :=
  sum (map (fun '(a, b) => Rabs (a - b)) (combine y_true y_pred))
    / INR (List.length y_true).

(** [r2_score] (force_finite): NaN with fewer than two samples; 1 on a
    perfect fit; 0 when the targets are constant and the fit is not. *)
Definition r2_score (y_true y_pred : list R) : f64 :=
  if (List.length y_true <? 2)%nat then None
  else
    let m := sum y_true / INR (List.length y_true) in
    let num := sum (sq_errors y_true y_pred) in
    let den := sum (map (fun a => (a - m) ^ 2) y_true) in
    if Req_dec_T num 0 then Some 1
    else if Req_dec_T den 0 then Some 0
    else Some (1 - num / den).

(** The dict returned by [evaluate_model]. *)
Record eval_result := mk_eval_result {
  predictions : list R;
  rmse : R;
  mae : R;
  r2 : f64
}.

(** [np.maximum(y_pred, 0)] *)
Definition clamp (y_pred : list R) : list R := map (fun p => Rmax p 0) y_pred.

(** [evaluate_model(model, X_test, y_test, model_name)]; the model is its
    [predict] function. The metric functions raise [ValueError] on
    inconsistent lengths or an empty sample ([None]). *)
Definition evaluate_model (predict : list (list f64) -> list R)
    (X_test : list (list f64)) (y_test : list R) : option eval_result :=
  let y_pred := clamp (predict X_test) in
  if negb (Nat.eqb (List.length y_test) (List.length y_pred))
     || Nat.eqb (List.length y_test) 0
  then None
  else
    let mse := mean_squared_error y_test y_pred in
    let mae := mean_absolute_error y_test y_pred in
    let r2 := r2_score y_test y_pred in
    Some (mk_eval_result y_pred (sqrt mse) mae r2).

(** The selection cell:
<<
if xgb_results['rmse'] < rf_results['rmse']:
    best_model_name = "XGBoost"; best_results = xgb_results
else:
    best_model_name = "Random Forest"; best_results = rf_results
>> *)
Definition select_best (xgb_results rf_results : eval_result) : string * eval_result :=
  if Rlt_dec (rmse xgb_results) (rmse rf_results)
  then ("XGBoost", xgb_results)
  else ("Random Forest", rf_results).

End Evaluate.

(** ** Column bookkeeping and the metadata artifact *)

Module Frame.

(** [df[c] = ...]: an existing column keeps its place, a new one is
    appended. *)
Definition setitem (cols : list string) (c : string) : list string :=
  if existsb (String.eqb c) cols then cols else cols ++ [c].

(** [df[wanted]]: the columns in the requested order; [KeyError] when
    one is missing. *)
Definition getitem_list (cols wanted : list string) : option (list string) :=
  if forallb (fun c => existsb (String.eqb c) cols) wanted then Some wanted
  else None.

(** [left.merge(right, on=key)] with no other shared column: the left
    columns, then the right ones other than the key. *)
Definition merge_columns (left right : list string) (key : string) : list string :=
  left ++ filter (fun c => negb (String.eqb c key)) right.

End Frame.

Module Metadata.

Import Evaluate.

(** The columns selected by the SQL query. *)
Definition query_columns : list string :=
  ["train_signature_code"; "from_station"; "to_station"; "hour"; "delay";
   "from_lat"; "from_long"; "to_lat"; "to_long"].

(** Columns of [df] when [create_features] runs: the plotting cell has
    already added [df['route']]. *)
Definition df_columns : list string := Frame.setitem query_columns "route".

(** Columns of the frame returned by [create_features]. *)
Definition create_features_columns (cols : list string) : list string :=
  let c := Frame.setitem cols "route" in
  let c := Frame.setitem c "hour_sin" in
  let c := Frame.setitem c "hour_cos" in
  let c := Frame.setitem c "route_distance" in
  let c := Frame.merge_columns c
             ["route"; "route_avg_delay"; "route_std_delay"; "route_count"] "route" in
  let c := Frame.setitem c "route_std_delay" in
  let c := Frame.setitem c "is_rush_hour" in
  Frame.setitem c "is_night".

Definition feature_columns : list string :=
  ["hour"; "hour_sin"; "hour_cos"; "route_distance";
   "route_avg_delay"; "route_std_delay"; "route_count";
   "is_rush_hour"; "is_night"; "route"].

Definition categorical_columns : list string := ["route"].

(** [feature_names = X.columns] for
    [X = df_features[feature_columns].copy()] after the encoding loop
    reassigned each categorical column. *)
Definition feature_names : option (list string) :=
  match Frame.getitem_list (create_features_columns df_columns) feature_columns with
  | Some xc => Some (fold_left Frame.setitem categorical_columns xc)
  | None => None
  end.

(** The dict written to [model_info.json]. *)
Record feature_info := mk_feature_info {
  fi_feature_names : list string;
  fi_model_type : string;
  fi_performance : R * R * Features.f64
}.

Definition make_feature_info (xgb_results rf_results : eval_result) : option feature_info :=
  match feature_names with
  | Some names =>
      let (best_model_name, best_results) := select_best xgb_results rf_results in
      Some (mk_feature_info names best_model_name
              (rmse best_results, mae best_results, r2 best_results))
  | None => None
  end.

End Metadata.

(** ** [make_sample_prediction] *)

Module SamplePrediction.

Import Features.
Open Scope R_scope.

Inductive py_exc := KeyError (k : string) | ValueError | IndexError.

(** A call's printed lines and its outcome: a raised exception or the
    returned value. *)
Definition py_result (A : Type) := (list string * (py_exc + A))%type.

Definition bool_to_f64 (b : bool) : f64 := Some (if b then 1 else 0).

(** [np.array([[pred_features[col] for col in feature_names]])]: one
    float64 row; a missing name raises [KeyError]. *)
Fixpoint feature_row_of (pred_features : list (string * f64)) (names : list string)
  : py_exc + list f64 :=
  match names with
  | [] => inr []
  | c :: names' =>
      match dict_get c pred_features, feature_row_of pred_features names' with
      | Some v, inr vs => inr (v :: vs)
      | None, _ => inl (KeyError c)
      | _, inl e => inl e
      end
  end.

(** [make_sample_prediction(from_station, to_station, hour)] over the
    notebook's globals [df_features], [label_encoders], [feature_names]
    and [best_model] (its [predict]). *)
Definition make_sample_prediction
    (df_features : list feature_row)
    (label_encoders : list (string * LabelEncoder.label_encoder))
    (feature_names : list string)
    (predict : list (list f64) -> list R)
    (from_st to_st : string) (h : Z) : py_result (option R) :=
  let sample_route :=
    filter (fun r => String.eqb (from_station (fr_dep r)) from_st
                     && String.eqb (to_station (fr_dep r)) to_st) df_features in
  match sample_route with
  | [] => (["❌ No data found for route " ++ from_st ++ " → " ++ to_st]%string, inr None)
  | route_data :: _ =>
      match dict_get "route_encoder" label_encoders with
      | None => ([], inl (KeyError "route_encoder"))
      | Some le =>
          match LabelEncoder.transform le [fr_route route_data] with
          | Some (code :: _) =>
              let pred_features : list (string * f64) :=
                [("hour", Some (IZR h));
                 ("hour_sin", Some (sin (2 * PI * IZR h / 24)));
                 ("hour_cos", Some (cos (2 * PI * IZR h / 24)));
                 ("route_distance", Some (fr_route_distance route_data));
                 ("route_avg_delay", fr_route_avg_delay route_data);
                 ("route_std_delay", Some (fr_route_std_delay route_data));
                 ("route_count", fr_route_count route_data);
                 ("is_rush_hour",
                   bool_to_f64 (((7 <=? h)%Z && (h <=? 9)%Z) || ((17 <=? h)%Z && (h <=? 19)%Z)));
                 ("is_night", bool_to_f64 ((h <=? 6)%Z || (22 <=? h)%Z));
                 ("route", Some (INR code))]%string in
              match feature_row_of pred_features feature_names with
              | inl e => ([], inl e)
              | inr x_pred =>
                  match predict [x_pred] with
                  | prediction :: _ => ([], inr (Some (Rmax 0 prediction)))
                  | [] => ([], inl IndexError)
                  end
              end
          | _ => ([], inl ValueError)
          end
      end
  end.

End SamplePrediction.

(** ** The training feature matrix and the sample-prediction loop *)

Module Training.

Import Features SamplePrediction.
Open Scope R_scope.

(** One row of [X] after the encoding loop, in [feature_columns] order;
    the boolean columns reach the model as 0.0 / 1.0. *)
Definition training_row (r : feature_row) (code : nat) : list f64 :=
  [Some (IZR (hour (fr_dep r))); Some (fr_hour_sin r); Some (fr_hour_cos r);
   Some (fr_route_distance r); fr_route_avg_delay r; Some (fr_route_std_delay r);
   fr_route_count r; bool_to_f64 (fr_is_rush_hour r); bool_to_f64 (fr_is_night r);
   Some (INR code)].

(** [X = df_features[feature_columns].copy()] followed by the encoding
    loop: the feature matrix and [label_encoders]. *)
Definition training_matrix (df_features : list feature_row)
  : option (list (list f64) * list (string * LabelEncoder.label_encoder)) :=
  match encode_routes (map fr_route df_features) with
  | Some (codes, label_encoders) =>
      Some (map (fun '(r, c) => training_row r c) (combine df_features codes),
            label_encoders)
  | None => None
  end.

Definition pair_eqb (x y : string * string) : bool :=
  String.eqb (fst x) (fst y) && String.eqb (snd x) (snd y).

(** [drop_duplicates()]: the first occurrence of each row, in order. *)
Fixpoint drop_duplicates_from (seen : list (string * string)) (l : list (string * string))
  : list (string * string) :=
  match l with
  | [] => []
  | x :: l' =>
      if existsb (pair_eqb x) seen then drop_duplicates_from seen l'
      else x :: drop_duplicates_from (x :: seen) l'
  end.

Definition drop_duplicates (l : list (string * string)) : list (string * string) :=
  drop_duplicates_from [] l.

(** [df_features[['from_station', 'to_station']].drop_duplicates().head(5)] *)
Definition sample_routes (df_features : list feature_row) : list (string * string) :=
  firstn 5 (drop_duplicates
    (map (fun r => (from_station (fr_dep r), to_station (fr_dep r))) df_features)).

Definition test_hours : list Z := [8%Z; 14%Z; 18%Z].

(** The calls of the test loop, in order. *)
Definition test_calls (df_features : list feature_row) : list (string * string * Z) :=
  flat_map (fun '(f, t) => map (fun h => (f, t, h)) test_hours) (sample_routes df_features).

(** The test loop: the calls run in order and an exception stops the
    loop. The lines printed for a non-[None] prediction format a float
    and are not modelled; the returned predictions are collected
    instead. *)
Fixpoint run_calls (df_features : list feature_row)
    (label_encoders : list (string * LabelEncoder.label_encoder))
    (names : list string) (predict : list (list f64) -> list R)
    (calls : list (string * string * Z))
  : py_result (list (string * string * Z * option R)) :=
  match calls with
  | [] => ([], inr [])
  | (f, t, h) :: cs =>
      let (out, res) := make_sample_prediction df_features label_encoders names predict f t h in
      match res with
      | inl e => (out, inl e)
      | inr v =>
          let (out', res') := run_calls df_features label_encoders names predict cs in
          ((out ++ out')%list,
           match res' with
           | inl e => inl e
           | inr vs => inr ((f, t, h, v) :: vs)
           end)
      end
  end.

Definition sample_prediction_loop (df_features : list feature_row)
    (label_encoders : list (string * LabelEncoder.label_encoder))
    (names : list string) (predict : list (list f64) -> list R)
  : py_result (list (string * string * Z * option R)) :=
  run_calls df_features label_encoders names predict (test_calls df_features).

End Training.

(** * Proofs *)

(** ** The order on strings *)

Module PyStrFacts.

Import PyStr.

Lemma ascii_compare_lt_trans (a b c : ascii) :
  Ascii.compare a b = Lt -> Ascii.compare b c = Lt -> Ascii.compare a c = Lt.
Proof.
  unfold Ascii.compare. rewrite !N.compare_lt_iff. lia.
Qed.

Lemma compare_refl (s : string) : String.compare s s = Eq.
Proof.
  induction s as [|a s IH]; simpl; auto.
  unfold Ascii.compare. rewrite N.compare_refl. exact IH.
Qed.

Lemma compare_lt_trans (s1 s2 s3 : string) :
  String.compare s1 s2 = Lt -> String.compare s2 s3 = Lt ->
  String.compare s1 s3 = Lt.
Proof.
  revert s2 s3.
  induction s1 as [|a s1 IH]; intros [|b s2] [|c s3]; simpl;
    try discriminate; auto.
  destruct (Ascii.compare a b) eqn:Eab; try discriminate;
  destruct (Ascii.compare b c) eqn:Ebc; try discriminate; intros H1 H2.
  - apply Ascii.compare_eq_iff in Eab, Ebc. subst.
    rewrite (IH s2 s3 H1 H2).
    unfold Ascii.compare. rewrite N.compare_refl. reflexivity.
  - apply Ascii.compare_eq_iff in Eab. subst. rewrite Ebc. reflexivity.
  - apply Ascii.compare_eq_iff in Ebc. subst. rewrite Eab. reflexivity.
  - rewrite (ascii_compare_lt_trans _ _ _ Eab Ebc). reflexivity.
Qed.

Lemma leb_trans (s1 s2 s3 : string) :
  String.leb s1 s2 = true -> String.leb s2 s3 = true -> String.leb s1 s3 = true.
Proof.
  unfold String.leb.
  destruct (String.compare s1 s2) eqn:E12; try discriminate;
  destruct (String.compare s2 s3) eqn:E23; try discriminate; intros _ _.
  - apply String.compare_eq_iff in E12, E23. subst. now rewrite compare_refl.
  - apply String.compare_eq_iff in E12. subst. now rewrite E23.
  - apply String.compare_eq_iff in E23. subst. now rewrite E12.
  - now rewrite (compare_lt_trans _ _ _ E12 E23).
Qed.

Lemma ltb_of_leb (s1 s2 : string) :
  String.leb s1 s2 = true -> s1 <> s2 -> String.ltb s1 s2 = true.
Proof.
  unfold String.leb, String.ltb.
  destruct (String.compare s1 s2) eqn:E; try discriminate; auto.
  apply String.compare_eq_iff in E. contradiction.
Qed.

Lemma leb_not_true (s1 s2 : string) :
  String.leb s1 s2 = false -> String.leb s2 s1 = true.
Proof.
  intros H. destruct (String.leb_total s1 s2) as [H'|H']; congruence.
Qed.

(** [sorted] is a permutation that sorts. *)

Lemma insert_perm (x : string) (l : list string) : Permutation (insert x l) (x :: l).
Proof.
  induction l as [|y l IH]; simpl; auto.
  destruct (String.leb x y); auto.
  eapply perm_trans; [apply perm_skip, IH | apply perm_swap].
Qed.

Lemma sorted_perm (l : list string) : Permutation (sorted l) l.
Proof.
  induction l as [|x l IH]; simpl; auto.
  eapply perm_trans; [apply insert_perm | apply perm_skip, IH].
Qed.

Lemma insert_sorted (x : string) (l : list string) :
  Sorted le l -> Sorted le (insert x l).
Proof.
  induction 1 as [|y l Hs IH Hhd]; simpl.
  - repeat constructor.
  - destruct (String.leb x y) eqn:Exy.
    + constructor; [constructor; auto | constructor; exact Exy].
    + apply leb_not_true in Exy.
      constructor; [exact IH|].
      destruct l as [|z l]; simpl.
      * constructor. exact Exy.
      * inversion Hhd; subst.
        destruct (String.leb x z); constructor; auto.
Qed.

Lemma sorted_sorted (l : list string) : Sorted le (sorted l).
Proof.
  induction l; simpl; [constructor | now apply insert_sorted].
Qed.

Lemma unique_strongly_sorted (l : list string) : StronglySorted le (unique l).
Proof.
  apply Sorted_StronglySorted; [intros a b c; apply leb_trans | apply sorted_sorted].
Qed.

Lemma unique_In (l : list string) (x : string) : In x (unique l) <-> In x l.
Proof.
  unfold unique, set. split; intros H.
  - apply (nodup_In string_dec). eapply Permutation_in; [apply sorted_perm | exact H].
  - eapply Permutation_in; [apply Permutation_sym, sorted_perm|].
    apply nodup_In. exact H.
Qed.

Lemma unique_NoDup (l : list string) : NoDup (unique l).
Proof.
  unfold unique, set.
  eapply Permutation_NoDup; [apply Permutation_sym, sorted_perm | apply NoDup_nodup].
Qed.

Lemma unique_length (l : list string) : List.length (unique l) = List.length (set l).
Proof. apply Permutation_length, sorted_perm. Qed.

(** A strictly increasing list is determined by its elements. *)
Lemma sorted_nodup_ext (l1 l2 : list string) :
  StronglySorted le l1 -> NoDup l1 ->
  StronglySorted le l2 -> NoDup l2 ->
  (forall x, In x l1 <-> In x l2) -> l1 = l2.
Proof.
  revert l2. induction l1 as [|a l1 IH]; intros [|b l2] S1 N1 S2 N2 Hx.
  - reflexivity.
  - exfalso. apply (proj2 (Hx b)). now left.
  - exfalso. apply (proj1 (Hx a)). now left.
  - apply StronglySorted_inv in S1 as [S1 F1].
    apply StronglySorted_inv in S2 as [S2 F2].
    apply NoDup_cons_iff in N1 as [Na N1].
    apply NoDup_cons_iff in N2 as [Nb N2].
    rewrite Forall_forall in F1, F2.
    assert (Hab : a = b).
    { destruct (proj1 (Hx a) (or_introl eq_refl)) as [->|Ha]; [reflexivity|].
      destruct (proj2 (Hx b) (or_introl eq_refl)) as [<-|Hb]; [reflexivity|].
      apply String.leb_antisym; [apply F1 | apply F2]; assumption. }
    subst b. f_equal. apply IH; auto.
    intros x. split; intros H.
    + destruct (proj1 (Hx x) (or_intror H)) as [->|H']; [contradiction|exact H'].
    + destruct (proj2 (Hx x) (or_intror H)) as [->|H']; [contradiction|exact H'].
Qed.

Lemma unique_ext (l1 l2 : list string) :
  (forall x, In x l1 <-> In x l2) -> unique l1 = unique l2.
Proof.
  intros Hx. apply sorted_nodup_ext; auto using unique_strongly_sorted, unique_NoDup.
  intros x. rewrite !unique_In. apply Hx.
Qed.

Lemma unique_strictly_sorted (l : list string) :
  StronglySorted (fun a b => String.ltb a b = true) (unique l).
Proof.
  generalize (unique_strongly_sorted l) (unique_NoDup l).
  generalize (unique l) as u.
  intros u; induction u as [|a u IH]; intros S N; constructor.
  - apply StronglySorted_inv in S as [S _]. apply NoDup_cons_iff in N as [_ N]. auto.
  - apply StronglySorted_inv in S as [_ F]. apply NoDup_cons_iff in N as [Na _].
    rewrite Forall_forall in F. apply Forall_forall. intros x Hx.
    apply ltb_of_leb; [apply F; exact Hx|].
    intros ->. contradiction.
Qed.

End PyStrFacts.

(** ** The label encoder *)

Module LabelEncoderFacts.

Import LabelEncoder.

Lemma index_of_nth_error (k : string) (l : list string) (i : nat) :
  index_of k l = Some i -> nth_error l i = Some k.
Proof.
  revert i. induction l as [|y l IH]; intros i; simpl; [discriminate|].
  destruct (String.eqb k y) eqn:E.
  - intros [= <-]. apply String.eqb_eq in E. now subst.
  - destruct (index_of k l) as [j|] eqn:Ej; simpl; [|discriminate].
    intros [= <-]. simpl. now apply IH.
Qed.

Lemma index_of_In (k : string) (l : list string) :
  In k l -> exists i, index_of k l = Some i.
Proof.
  induction l as [|y l IH]; simpl; [contradiction|]. intros H.
  destruct (String.eqb k y) eqn:E; [eauto|].
  destruct H as [->|H]; [now rewrite String.eqb_refl in E|].
  destruct (IH H) as [i Hi]. rewrite Hi. simpl. eauto.
Qed.

Lemma index_of_lt (k : string) (l : list string) (i : nat) :
  index_of k l = Some i -> (i < List.length l)%nat.
Proof.
  intros H. apply nth_error_Some. rewrite (index_of_nth_error _ _ _ H). discriminate.
Qed.

Lemma transform_single (le : label_encoder) (k : string) :
  transform le [k] = option_map (fun i => [i]) (index_of k (classes_ le)).
Proof. simpl. now destruct (index_of k (classes_ le)). Qed.

Lemma transform_total (le : label_encoder) (ys : list string) :
  (forall k, In k ys -> In k (classes_ le)) ->
  exists codes, transform le ys = Some codes /\
    Forall2 (fun k i => index_of k (classes_ le) = Some i) ys codes.
Proof.
  induction ys as [|k ys IH]; intros H; simpl; [eauto|].
  destruct (index_of_In k (classes_ le) (H k (or_introl eq_refl))) as [i Hi].
  destruct IH as [codes [Hc Hf]]; [intros x Hx; apply H; now right|].
  rewrite Hi, Hc. eauto.
Qed.

Lemma fit_covers (ys : list string) (k : string) :
  In k ys -> In k (classes_ (fit ys)).
Proof. intros H. simpl. now apply PyStrFacts.unique_In. Qed.

Lemma Forall2_nth_error {A B : Type} (P : A -> B -> Prop) (l1 : list A) (l2 : list B) :
  Forall2 P l1 l2 -> forall n a, nth_error l1 n = Some a ->
  exists b, nth_error l2 n = Some b /\ P a b.
Proof.
  induction 1 as [|x y l1 l2 Hxy _ IH]; intros [|n] a; simpl;
    try discriminate; [intros [= <-]; eauto | apply IH].
Qed.

Lemma Forall2_nth_error_r {A B : Type} (P : A -> B -> Prop) (l1 : list A) (l2 : list B) :
  Forall2 P l1 l2 -> forall n b, nth_error l2 n = Some b ->
  exists a, nth_error l1 n = Some a /\ P a b.
Proof.
  induction 1 as [|x y l1 l2 Hxy _ IH]; intros [|n] b; simpl;
    try discriminate; [intros [= <-]; eauto | apply IH].
Qed.

End LabelEncoderFacts.

(** ** Claims about the encoder *)

Import LabelEncoderFacts.

(** C4: fitting the route encoder on the route column gives every row the
    code of its key; codes are integers in [0, number of distinct keys);
    two rows get the same code only when they have the same key; and the
    encoder looked up in the persisted [encoders.pkl] dict transforms each
    training key to the code it received during training. *)
Theorem encoder_fit_roundtrip (routes : list string) :
  exists codes label_encoders le,
    encode_routes routes = Some (codes, label_encoders) /\
    dict_get "route_encoder" (persisted_encoders label_encoders) = Some le /\
    List.length codes = List.length routes /\
    (forall n k, nth_error routes n = Some k ->
       exists i, nth_error codes n = Some i /\
         (i < List.length (PyStr.set routes))%nat /\
         LabelEncoder.transform le [k] = Some [i]) /\
    (forall n m i, nth_error codes n = Some i -> nth_error codes m = Some i ->
       nth_error routes n = nth_error routes m).
Proof.
  destruct (transform_total (LabelEncoder.fit routes) routes (fit_covers routes))
    as [codes [Hc Hf]].
  exists codes, [("route_encoder", LabelEncoder.fit routes)], (LabelEncoder.fit routes).
  unfold encode_routes, LabelEncoder.fit_transform. rewrite Hc.
  split; [reflexivity|]. split; [reflexivity|]. split.
  { symmetry. eapply Forall2_length. exact Hf. }
  split.
  - intros n k Hk.
    destruct (Forall2_nth_error _ _ _ Hf n k Hk) as [i [Hi Hki]].
    exists i. split; [exact Hi|]. split.
    + rewrite <- PyStrFacts.unique_length. exact (index_of_lt _ _ _ Hki).
    + rewrite transform_single, Hki. reflexivity.
  - intros n m i Hn Hm.
    destruct (Forall2_nth_error_r _ _ _ Hf n i Hn) as [a [Ha Hai]].
    destruct (Forall2_nth_error_r _ _ _ Hf m i Hm) as [b [Hb Hbi]].
    apply index_of_nth_error in Hai, Hbi. rewrite Ha, Hb. congruence.
Qed.

(** C10: the fitted encoder's classes are the distinct keys in strictly
    increasing lexicographic order, each key is encoded as its index in
    that list, and two key sequences with the same distinct keys (in any
    order, with any multiplicity) give the same encoder. *)
Theorem encoder_sorted_index (ys ys' : list string) :
  (forall k, In k ys <-> In k ys') ->
  LabelEncoder.fit ys = LabelEncoder.fit ys' /\
  LabelEncoder.classes_ (LabelEncoder.fit ys) = PyStr.unique ys /\
  StronglySorted (fun a b => String.ltb a b = true) (PyStr.unique ys) /\
  (forall k, In k (PyStr.unique ys) <-> In k ys) /\
  (forall k, In k ys -> exists i,
     LabelEncoder.transform (LabelEncoder.fit ys) [k] = Some [i] /\
     nth_error (PyStr.unique ys) i = Some k).
Proof.
  intros Hsame. split; [unfold LabelEncoder.fit; f_equal; now apply PyStrFacts.unique_ext|].
  split; [reflexivity|]. split; [apply PyStrFacts.unique_strictly_sorted|].
  split; [apply PyStrFacts.unique_In|].
  intros k Hk. destruct (index_of_In k (PyStr.unique ys)) as [i Hi].
  { now apply PyStrFacts.unique_In. }
  exists i. rewrite transform_single. simpl. rewrite Hi. split; [reflexivity|].
  now apply index_of_nth_error.
Qed.

Lemma encoder_sorted_index_witness :
  (forall k, In k ["B_C"; "A_B"; "B_C"] <-> In k ["A_B"; "B_C"]) /\
  LabelEncoder.fit ["B_C"; "A_B"; "B_C"] = LabelEncoder.fit ["A_B"; "B_C"] /\
  LabelEncoder.classes_ (LabelEncoder.fit ["B_C"; "A_B"; "B_C"]) = ["A_B"; "B_C"].
Proof.
  assert (H : forall k, In k ["B_C"; "A_B"; "B_C"] <-> In k ["A_B"; "B_C"]).
  { intros k; simpl; tauto. }
  destruct (encoder_sorted_index _ _ H) as [Hfit [Hcl _]].
  split; [exact H|]. split; [exact Hfit|]. rewrite Hcl. reflexivity.
Defined.

(** ** The feature builder *)

Module FeaturesFacts.

Import Features.
Open Scope R_scope.

Lemma filter_map_comm {A B : Type} (f : B -> bool) (g : A -> B) (l : list A) :
  filter f (map g l) = map g (filter (fun x => f (g x)) l).
Proof.
  induction l as [|x l IH]; simpl; auto.
  destruct (f (g x)); simpl; now rewrite IH.
Qed.

Lemma filter_eqb_NoDup (x : string) (l : list string) :
  NoDup l -> In x l -> filter (fun r => String.eqb r x) l = [x].
Proof.
  induction 1 as [|y l Hy Hl IH]; simpl; [contradiction|]. intros Hx.
  destruct (String.eqb y x) eqn:E.
  - apply String.eqb_eq in E. subst y. f_equal.
    clear IH Hx Hl. induction l as [|z l IHl]; simpl; auto.
    destruct (String.eqb z x) eqn:Ez.
    + apply String.eqb_eq in Ez. subst. exfalso. apply Hy. now left.
    + apply IHl. intros H. apply Hy. now right.
  - destruct Hx as [->|Hx]; [now rewrite String.eqb_refl in E | now apply IH].
Qed.

Lemma route_stats_lookup (rows : list pre_row) (p : pre_row) :
  In p rows ->
  filter (fun s => String.eqb (rs_route s) (pr_route p)) (route_stats rows)
  = [stat_of rows (pr_route p)].
Proof.
  intros Hp. unfold route_stats. rewrite filter_map_comm. unfold stat_of at 1. simpl.
  rewrite filter_eqb_NoDup; [reflexivity | apply PyStrFacts.unique_NoDup|].
  apply PyStrFacts.unique_In. now apply in_map.
Qed.

Lemma merge_left_unique (rows sub : list pre_row) :
  incl sub rows ->
  merge_left sub (route_stats rows)
  = map (fun p => (p, Some (stat_of rows (pr_route p)))) sub.
Proof.
  induction sub as [|p sub IH]; intros Hincl; simpl; auto.
  rewrite route_stats_lookup by (apply Hincl; now left). simpl.
  f_equal. apply IH. intros x Hx. apply Hincl. now right.
Qed.

Lemma create_features_eq (df : list departure) :
  create_features df
  = map (fun p => finish (p, Some (stat_of (map pre_of df) (pr_route p))))
        (map pre_of df).
Proof.
  unfold create_features. rewrite merge_left_unique by apply incl_refl.
  now rewrite map_map.
Qed.

Lemma group_delays_pre (df : list departure) (r : string) :
  group_delays (map pre_of df) r
  = map delay (filter (fun d => String.eqb (route_of d) r) df).
Proof.
  unfold group_delays. rewrite filter_map_comm, map_map. reflexivity.
Qed.

Lemma create_features_dep (df : list departure) :
  map fr_dep (create_features df) = df.
Proof.
  rewrite create_features_eq, !map_map. simpl.
  induction df as [|d df IH]; simpl; [reflexivity|]. f_equal.
  etransitivity; [|exact IH]. apply map_ext. reflexivity.
Qed.

(** Every row of [create_features df] is [finish] applied to its
    departure with that route's statistics row. *)
Lemma create_features_Forall (P : feature_row -> Prop) (df : list departure) :
  (forall d, In d df ->
     P (finish (pre_of d, Some (stat_of (map pre_of df) (route_of d))))) ->
  Forall P (create_features df).
Proof.
  intros H. rewrite create_features_eq, map_map. apply Forall_forall.
  intros r Hr. apply in_map_iff in Hr as [d [<- Hd]]. now apply H.
Qed.

Lemma own_group_nonempty (df : list departure) (d : departure) :
  In d df -> In (delay d) (map delay (filter (fun d' => String.eqb (route_of d') (route_of d)) df)).
Proof.
  intros Hd. apply in_map. apply filter_In. split; [exact Hd | apply String.eqb_refl].
Qed.

End FeaturesFacts.

(** ** Claims about the feature builder *)

Import Features FeaturesFacts.

Lemma agg_mean_cons (x : R) (xs : list R) :
  agg_mean (x :: xs) = Some (sum (x :: xs) / INR (List.length (x :: xs))).
Proof. reflexivity. Qed.

Lemma create_features_rows (df : list departure) :
  Forall (fun r =>
     let xs := map delay (filter (fun d => String.eqb (route_of d) (fr_route r)) df) in
     let n := List.length xs in
     fr_route r = route_of (fr_dep r) /\
     fr_route_avg_delay r = Some (sum xs / INR n) /\
     fr_route_count r = Some (INR n) /\
     fr_route_std_delay r =
       (if (n <=? 1)%nat then 0%R
        else sqrt (sum (map (fun x => (x - sum xs / INR n) ^ 2) xs) / INR (n - 1))))
    (create_features df).
Proof.
  apply create_features_Forall. intros d Hd. simpl.
  rewrite group_delays_pre.
  pose proof (own_group_nonempty df d Hd) as Hne.
  set (xs := map delay (filter (fun d' => String.eqb (route_of d') (route_of d)) df)) in *.
  split; [reflexivity|]. split.
  { destruct xs as [|x xs']; [contradiction | reflexivity]. }
  split; [reflexivity|].
  unfold agg_std. destruct (List.length xs <=? 1)%nat; reflexivity.
Qed.

(** C3: [route_avg_delay], [route_std_delay] and [route_count] of every
    output row are the mean, the sample standard deviation (0 for a
    single observation) and the count of the delays of all input records
    with that row's route key; the rows are the input records, in order.
    On the three departures A->B at 08:00 (delay 5), 08:00 (delay 7) and
    20:00 (delay 3), every row has route "A_B", mean 5, count 3 and
    standard deviation 2, the sample standard deviation of [5, 7, 3]. *)
Theorem route_stats_features (df : list departure) :
  map fr_dep (create_features df) = df /\
  Forall (fun r =>
     let xs := map delay (filter (fun d => String.eqb (route_of d) (fr_route r)) df) in
     let n := List.length xs in
     fr_route r = route_of (fr_dep r) /\
     fr_route_avg_delay r = Some (sum xs / INR n) /\
     fr_route_count r = Some (INR n) /\
     fr_route_std_delay r =
       (if (n <=? 1)%nat then 0%R
        else sqrt (sum (map (fun x => (x - sum xs / INR n) ^ 2) xs) / INR (n - 1))))
    (create_features df) /\
  (let df0 := [mk_departure "S1" "A" "B" 8%Z 5 0 0 0 0;
               mk_departure "S2" "A" "B" 8%Z 7 0 0 0 0;
               mk_departure "S3" "A" "B" 20%Z 3 0 0 0 0] in
   List.length (create_features df0) = 3%nat /\
   Forall (fun r => fr_route r = "A_B"%string /\ fr_route_avg_delay r = Some 5 /\
                    fr_route_count r = Some 3 /\ fr_route_std_delay r = 2)
     (create_features df0)).
Proof.
  split; [apply create_features_dep|]. split; [apply create_features_rows|].
  intros df0.
  split; [rewrite <- (length_map fr_dep), create_features_dep; reflexivity|].
  pose proof (create_features_rows df0) as Hrows.
  rewrite Forall_forall in Hrows |- *. intros r Hr.
  destruct (Hrows r Hr) as [Hroute [Havg [Hcount Hstd]]]. clear Hrows.
  assert (Hin : In (fr_dep r) df0).
  { rewrite <- (create_features_dep df0). now apply in_map. }
  assert (Hab : fr_route r = "A_B"%string).
  { rewrite Hroute. simpl in Hin.
    destruct Hin as [<-|[<-|[<-|[]]]]; reflexivity. }
  rewrite Hab in Havg, Hcount, Hstd. simpl in Havg, Hcount, Hstd.
  split; [exact Hab|]. split; [rewrite Havg; f_equal; field|].
  split; [rewrite Hcount; f_equal; lra|].
  rewrite Hstd.
  transitivity (sqrt (2 * 2)); [f_equal; field | apply sqrt_square; lra].
Qed.

(** C5: every row has [hour_sin = sin(2 pi hour / 24)] and
    [hour_cos = cos(2 pi hour / 24)], so [hour_sin^2 + hour_cos^2 = 1]
    (exactly, over the reals that idealise float64). *)
Theorem hour_cyclical_encoding (df : list departure) :
  Forall (fun r =>
     fr_hour_sin r = sin (2 * PI * IZR (hour (fr_dep r)) / 24) /\
     fr_hour_cos r = cos (2 * PI * IZR (hour (fr_dep r)) / 24) /\
     fr_hour_sin r ^ 2 + fr_hour_cos r ^ 2 = 1)
    (create_features df).
Proof.
  apply create_features_Forall. intros d _. simpl.
  unfold hour_sin_of, hour_cos_of.
  split; [reflexivity|]. split; [reflexivity|].
  set (x := 2 * PI * IZR (hour d) / 24).
  transitivity (Rsqr (sin x) + Rsqr (cos x)); [unfold Rsqr; ring | apply sin2_cos2].
Qed.

(** C6: in every row, [is_rush_hour] holds iff the hour lies in [7, 9]
    or [17, 19], and [is_night] holds iff the hour is at most 6 or at
    least 22. *)
Theorem rush_night_indicators (df : list departure) :
  Forall (fun r =>
     (fr_is_rush_hour r = true <->
        ((7 <= hour (fr_dep r) <= 9) \/ (17 <= hour (fr_dep r) <= 19))%Z) /\
     (fr_is_night r = true <->
        (hour (fr_dep r) <= 6 \/ hour (fr_dep r) >= 22)%Z))
    (create_features df).
Proof.
  apply create_features_Forall. intros d _. simpl.
  unfold is_rush_hour_of, is_night_of.
  rewrite !orb_true_iff, !andb_true_iff, !Z.leb_le. lia.
Qed.

(** C7: no row has both [is_rush_hour] and [is_night] set (for every
    hour, not only those in [0, 23]). *)
Theorem rush_night_exclusive (df : list departure) :
  Forall (fun r => fr_is_rush_hour r && fr_is_night r = false)
    (create_features df).
Proof.
  apply create_features_Forall. intros d _. simpl.
  unfold is_rush_hour_of, is_night_of.
  destruct (7 <=? hour d)%Z eqn:E1, (hour d <=? 9)%Z eqn:E2,
           (17 <=? hour d)%Z eqn:E3, (hour d <=? 19)%Z eqn:E4,
           (hour d <=? 6)%Z eqn:E5, (22 <=? hour d)%Z eqn:E6;
    rewrite ?Z.leb_le, ?Z.leb_gt in *; simpl; try reflexivity; lia.
Qed.

(** ** Claims about evaluation, selection and the artifacts *)

Import Evaluate.

Lemma clamp_nonneg (y_pred : list R) : Forall (fun p => 0 <= p) (clamp y_pred).
Proof.
  unfold clamp. apply Forall_forall. intros p Hp.
  apply in_map_iff in Hp as [q [<- _]]. apply Rmax_r.
Qed.

(** C2: whenever [evaluate_model] gets one prediction per test target
    (and at least one target), it returns the clamped predictions
    [max(p, 0)] of the model's raw output, none of them negative, and
    computes RMSE, MAE and R^2 from that clamped array. *)
Theorem evaluate_model_clamps (predict : list (list f64) -> list R)
    (X_test : list (list f64)) (y_test : list R) :
  List.length (predict X_test) = List.length y_test ->
  (0 < List.length y_test)%nat ->
  exists res,
    evaluate_model predict X_test y_test = Some res /\
    predictions res = map (fun p => Rmax p 0) (predict X_test) /\
    Forall (fun p => 0 <= p) (predictions res) /\
    rmse res = sqrt (mean_squared_error y_test (predictions res)) /\
    mae res = mean_absolute_error y_test (predictions res) /\
    r2 res = r2_score y_test (predictions res).
Proof.
  intros Hlen Hpos. unfold evaluate_model.
  assert (Hc : List.length (clamp (predict X_test)) = List.length y_test)
    by (unfold clamp; now rewrite length_map).
  rewrite Hc, Nat.eqb_refl. simpl.
  destruct (Nat.eqb (List.length y_test) 0) eqn:E0;
    [apply Nat.eqb_eq in E0; lia|].
  eexists. split; [reflexivity|]. simpl.
  split; [reflexivity|]. split; [apply clamp_nonneg|]. auto.
Qed.

Lemma evaluate_model_clamps_witness :
  List.length ((fun _ : list (list f64) => [-3; 2]) [[]; []]) = List.length [1; 2] /\
  exists res,
    evaluate_model (fun _ => [-3; 2]) [[]; []] [1; 2] = Some res /\
    Forall (fun p => 0 <= p) (predictions res).
Proof.
  split; [reflexivity|].
  destruct (evaluate_model_clamps (fun _ => [-3; 2]) [[]; []] [1; 2])
    as [res [Hres [_ [Hnn _]]]]; [reflexivity | simpl; lia |].
  exists res. split; assumption.
Defined.

(** C1, as the code has it: XGBoost is selected exactly when its RMSE is
    strictly lower than Random Forest's; otherwise, ties included, Random
    Forest (the model evaluated second) is selected; between RMSEs 4.2
    and 3.9 the model with 3.9 is selected whichever of the two has it. *)
Theorem select_best_rule (xgb_results rf_results : eval_result) :
  (select_best xgb_results rf_results = ("XGBoost"%string, xgb_results) <->
     rmse xgb_results < rmse rf_results) /\
  (rmse rf_results <= rmse xgb_results ->
     select_best xgb_results rf_results = ("Random Forest"%string, rf_results)) /\
  (((rmse xgb_results = 4.2 /\ rmse rf_results = 3.9) \/
    (rmse xgb_results = 3.9 /\ rmse rf_results = 4.2)) ->
     rmse (snd (select_best xgb_results rf_results)) = 3.9).
Proof.
  unfold select_best.
  destruct (Rlt_dec (rmse xgb_results) (rmse rf_results)) as [Hlt|Hge].
  - split; [tauto|]. split; [intros; lra|]. simpl. intros [[H1 H2]|[H1 H2]]; lra.
  - split; [split; [intros [= H]; discriminate | contradiction]|].
    split; [reflexivity|]. simpl. intros [[H1 H2]|[H1 H2]]; [exact H2 | lra].
Qed.

(** C1 fails on a tie: with equal RMSEs the code selects Random Forest,
    not XGBoost, which is evaluated first. *)
Lemma select_best_tie_counterexample :
  fst (select_best (mk_eval_result [] 1 1 None) (mk_eval_result [] 1 2 None))
    = "Random Forest"%string /\
  fst (select_best (mk_eval_result [] 1 1 None) (mk_eval_result [] 1 2 None))
    <> "XGBoost"%string.
Proof.
  unfold select_best. simpl.
  destruct (Rlt_dec 1 1) as [H|_]; [lra|]. simpl.
  split; [reflexivity | discriminate].
Qed.

Lemma select_best_rule_witness :
  rmse (snd (select_best (mk_eval_result [] 4.2 0 None) (mk_eval_result [] 3.9 0 None)))
  = 3.9 /\
  rmse (snd (select_best (mk_eval_result [] 3.9 0 None) (mk_eval_result [] 4.2 0 None)))
  = 3.9.
Proof.
  split.
  - apply (select_best_rule (mk_eval_result [] 4.2 0 None) (mk_eval_result [] 3.9 0 None)).
    left. simpl. split; reflexivity.
  - apply (select_best_rule (mk_eval_result [] 3.9 0 None) (mk_eval_result [] 4.2 0 None)).
    right. simpl. split; reflexivity.
Defined.

Import Metadata.

(** C9: the metadata record written to [model_info.json] lists exactly
    the ten feature columns hour, hour_sin, hour_cos, route_distance,
    route_avg_delay, route_std_delay, route_count, is_rush_hour,
    is_night and route (the column holding the encoded route), in that
    order, with the selected model's type label and its RMSE, MAE and
    R^2. *)
Theorem metadata_feature_names (xgb_results rf_results : eval_result) :
  exists info,
    make_feature_info xgb_results rf_results = Some info /\
    fi_feature_names info =
      ["hour"; "hour_sin"; "hour_cos"; "route_distance";
       "route_avg_delay"; "route_std_delay"; "route_count";
       "is_rush_hour"; "is_night"; "route"]%string /\
    List.length (fi_feature_names info) = 10%nat /\
    fi_model_type info = fst (select_best xgb_results rf_results) /\
    fi_performance info =
      (rmse (snd (select_best xgb_results rf_results)),
       mae (snd (select_best xgb_results rf_results)),
       r2 (snd (select_best xgb_results rf_results))).
Proof.
  unfold make_feature_info.
  assert (Hn : feature_names =
    Some ["hour"; "hour_sin"; "hour_cos"; "route_distance";
          "route_avg_delay"; "route_std_delay"; "route_count";
          "is_rush_hour"; "is_night"; "route"]%string) by reflexivity.
  rewrite Hn.
  destruct (select_best xgb_results rf_results) as [name best].
  eexists. split; [reflexivity|]. simpl. auto.
Qed.

Import SamplePrediction.

Lemma filter_none {A : Type} (f : A -> bool) (l : list A) :
  (forall x, In x l -> f x = false) -> filter f l = [].
Proof.
  induction l as [|x l IH]; intros H; simpl; [reflexivity|].
  rewrite (H x (or_introl eq_refl)). apply IH. intros y Hy. apply H. now right.
Qed.

(** C8: when no row of [df_features] has the requested origin and
    destination, [make_sample_prediction] prints the "No data found"
    line and returns [None]: no exception and no number (in particular
    not 0). *)
Theorem sample_prediction_no_data
    (df_features : list feature_row)
    (label_encoders : list (string * LabelEncoder.label_encoder))
    (names : list string) (predict : list (list f64) -> list R)
    (from_st to_st : string) (h : Z) :
  (forall r, In r df_features ->
     ~ (from_station (fr_dep r) = from_st /\ to_station (fr_dep r) = to_st)) ->
  make_sample_prediction df_features label_encoders names predict from_st to_st h
  = (["❌ No data found for route " ++ from_st ++ " → " ++ to_st]%string, inr None).
Proof.
  intros Hnone. unfold make_sample_prediction.
  replace (filter _ df_features) with (@nil feature_row); [reflexivity|].
  symmetry. apply filter_none. intros r Hr. cbv beta.
  destruct (String.eqb (from_station (fr_dep r)) from_st) eqn:E1,
           (String.eqb (to_station (fr_dep r)) to_st) eqn:E2; try reflexivity.
  apply String.eqb_eq in E1, E2. exfalso. apply (Hnone r Hr). tauto.
Qed.

Lemma sample_prediction_no_data_witness :
  (forall r, In r (create_features [mk_departure "S1" "A" "B" 8%Z 5 0 0 0 0]) ->
     ~ (from_station (fr_dep r) = "B"%string /\ to_station (fr_dep r) = "C"%string)) /\
  snd (make_sample_prediction (create_features [mk_departure "S1" "A" "B" 8%Z 5 0 0 0 0])
         [] [] (fun _ => [0]) "B" "C" 8%Z) = inr None.
Proof.
  assert (H : forall r, In r (create_features [mk_departure "S1" "A" "B" 8%Z 5 0 0 0 0]) ->
     ~ (from_station (fr_dep r) = "B"%string /\ to_station (fr_dep r) = "C"%string)).
  { intros r Hr [H1 _].
    apply (in_map fr_dep) in Hr. rewrite create_features_dep in Hr.
    destruct Hr as [Hd|[]]. rewrite <- Hd in H1. simpl in H1. discriminate. }
  split; [exact H|].
  rewrite (sample_prediction_no_data _ [] [] (fun _ => [0]) "B" "C" 8%Z H).
  reflexivity.
Defined.

(** * Further properties of the notebook *)

(** ** Serving a prediction from the training artifacts *)

Module ServingFacts.

Import Features FeaturesFacts Evaluate SamplePrediction Training LabelEncoderFacts.
Open Scope R_scope.

Lemma create_features_hour_cols (df : list departure) :
  Forall (fun r =>
     fr_hour_sin r = hour_sin_of (hour (fr_dep r)) /\
     fr_hour_cos r = hour_cos_of (hour (fr_dep r)) /\
     fr_is_rush_hour r = is_rush_hour_of (hour (fr_dep r)) /\
     fr_is_night r = is_night_of (hour (fr_dep r)))
    (create_features df).
Proof.
  apply create_features_Forall. intros d _. simpl. auto.
Qed.

Lemma nth_error_combine {A B : Type} (l1 : list A) (l2 : list B) n a b :
  nth_error l1 n = Some a -> nth_error l2 n = Some b ->
  nth_error (combine l1 l2) n = Some (a, b).
Proof.
  revert l2 n. induction l1 as [|x l1 IH]; intros [|y l2] [|n]; simpl;
    try discriminate; [congruence | apply IH].
Qed.

Lemma encode_routes_spec (routes : list string) :
  exists codes,
    encode_routes routes = Some (codes, [("route_encoder", LabelEncoder.fit routes)]) /\
    Forall2 (fun k i => LabelEncoder.index_of k (LabelEncoder.classes_ (LabelEncoder.fit routes)) = Some i)
      routes codes.
Proof.
  destruct (transform_total (LabelEncoder.fit routes) routes (fit_covers routes))
    as [codes [Hc Hf]].
  exists codes. unfold encode_routes, LabelEncoder.fit_transform. rewrite Hc. auto.
Qed.

(** The vector [make_sample_prediction] builds for a record [r] with
    route code [c] at hour [h]. *)
Lemma sample_prediction_found (dff : list feature_row) le predict from_st to_st h r rest c :
  filter (fun r => String.eqb (from_station (fr_dep r)) from_st
                   && String.eqb (to_station (fr_dep r)) to_st) dff = r :: rest ->
  LabelEncoder.index_of (fr_route r) (LabelEncoder.classes_ le) = Some c ->
  make_sample_prediction dff [("route_encoder"%string, le)] Metadata.feature_columns
    predict from_st to_st h
  = ([], match predict [[Some (IZR h); Some (sin (2 * PI * IZR h / 24));
                         Some (cos (2 * PI * IZR h / 24));
                         Some (fr_route_distance r); fr_route_avg_delay r;
                         Some (fr_route_std_delay r); fr_route_count r;
                         bool_to_f64 (is_rush_hour_of h); bool_to_f64 (is_night_of h);
                         Some (INR c)]] with
         | p :: _ => inr (Some (Rmax 0 p))
         | [] => inl IndexError
         end).
Proof.
  intros Hf Hc. unfold make_sample_prediction. cbv zeta. rewrite Hf.
  simpl. rewrite Hc. unfold is_rush_hour_of, is_night_of.
  destruct (predict _); reflexivity.
Qed.

End ServingFacts.

Import Training ServingFacts.

(** With the encoders fitted on [df_features] and the saved feature
    names, [make_sample_prediction] queried at the hour of the first
    record of the route hands the model exactly that record's row of the
    training matrix [X], and returns the clamped prediction. *)
Theorem sample_prediction_uses_training_row (df : list departure)
    (predict : list (list f64) -> list R) (from_st to_st : string)
    (r : feature_row) (rest : list feature_row) :
  filter (fun r => String.eqb (from_station (fr_dep r)) from_st
                   && String.eqb (to_station (fr_dep r)) to_st)
    (create_features df) = r :: rest ->
  exists X label_encoders n xr,
    training_matrix (create_features df) = Some (X, label_encoders) /\
    nth_error (create_features df) n = Some r /\
    nth_error X n = Some xr /\
    make_sample_prediction (create_features df) label_encoders
      Metadata.feature_columns predict from_st to_st (hour (fr_dep r))
    = ([], match predict [xr] with
           | p :: _ => inr (Some (Rmax 0 p))
           | [] => inl IndexError
           end).
Proof.
  intros Hf.
  set (dff := create_features df) in *.
  destruct (encode_routes_spec (map fr_route dff)) as [codes [He Hcodes]].
  assert (Hr : In r dff) by (eapply filter_In; rewrite Hf; now left).
  destruct (In_nth_error _ _ Hr) as [n Hn].
  destruct (Forall2_nth_error _ _ _ Hcodes n (fr_route r)) as [c [Hcn Hc]].
  { now rewrite nth_error_map, Hn. }
  exists (map (fun '(r, c) => training_row r c) (combine dff codes)),
         [("route_encoder"%string, LabelEncoder.fit (map fr_route dff))],
         n, (training_row r c).
  split; [unfold training_matrix; now rewrite He|].
  split; [exact Hn|].
  split; [rewrite nth_error_map, (nth_error_combine _ _ _ _ _ Hn Hcn); reflexivity|].
  rewrite (sample_prediction_found _ _ _ _ _ _ _ _ _ Hf Hc).
  pose proof (create_features_hour_cols df) as Hcols. rewrite Forall_forall in Hcols.
  destruct (Hcols r Hr) as [Hs [Hc' [Hrh Hn']]].
  unfold training_row. rewrite Hs, Hc', Hrh, Hn'. reflexivity.
Qed.

Lemma sample_prediction_uses_training_row_witness :
  exists X label_encoders n xr,
    training_matrix (create_features [mk_departure "S1" "A" "B" 8%Z 5 0 0 0 0])
      = Some (X, label_encoders) /\
    nth_error (create_features [mk_departure "S1" "A" "B" 8%Z 5 0 0 0 0]) n
      = Some (hd (mk_feature_row (mk_departure "" "" "" 0 0 0 0 0 0) "" 0 0 0 None 0 None false false)
                 (create_features [mk_departure "S1" "A" "B" 8%Z 5 0 0 0 0])) /\
    nth_error X n = Some xr.
Proof.
  destruct (sample_prediction_uses_training_row [mk_departure "S1" "A" "B" 8%Z 5 0 0 0 0]
              (fun _ => [0]) "A" "B"
              (hd (mk_feature_row (mk_departure "" "" "" 0 0 0 0 0 0) "" 0 0 0 None 0 None false false)
                 (create_features [mk_departure "S1" "A" "B" 8%Z 5 0 0 0 0])) [])
    as [X [le [n [xr [H1 [H2 [H3 _]]]]]]].
  { reflexivity. }
  exists X, le, n, xr. auto.
Defined.

Lemma drop_duplicates_from_In (seen l : list (string * string)) x :
  In x (drop_duplicates_from seen l) -> In x l.
Proof.
  revert seen. induction l as [|y l IH]; intros seen; simpl; [auto|].
  destruct (existsb (pair_eqb y) seen).
  - intros H. right. eapply IH. exact H.
  - intros [->|H]; [now left | right; eapply IH; exact H].
Qed.

Lemma In_firstn {A : Type} (n : nat) (l : list A) x : In x (firstn n l) -> In x l.
Proof.
  intros H. rewrite <- (firstn_skipn n l). apply in_or_app. now left.
Qed.

Lemma sample_routes_found (dff : list feature_row) f t :
  In (f, t) (sample_routes dff) ->
  exists r rest,
    filter (fun r => String.eqb (from_station (fr_dep r)) f
                     && String.eqb (to_station (fr_dep r)) t) dff = r :: rest.
Proof.
  unfold sample_routes, drop_duplicates. intros H.
  apply In_firstn, drop_duplicates_from_In, in_map_iff in H as [r0 [Hr0 Hin]].
  injection Hr0 as <- <-.
  destruct (filter _ dff) as [|r rest] eqn:E; [|eauto].
  exfalso. assert (Hin' : In r0 (filter (fun r => String.eqb (from_station (fr_dep r)) (from_station (fr_dep r0))
                     && String.eqb (to_station (fr_dep r)) (to_station (fr_dep r0))) dff)).
  { apply filter_In. split; [exact Hin|]. now rewrite !String.eqb_refl. }
  rewrite E in Hin'. exact Hin'.
Qed.

Lemma run_calls_all_some dff les names predict calls :
  (forall f t h, In (f, t, h) calls -> exists p,
     make_sample_prediction dff les names predict f t h = ([], inr (Some p)) /\ 0 <= p) ->
  exists vs, run_calls dff les names predict calls = ([], inr vs) /\
    List.length vs = List.length calls /\
    Forall (fun v => exists p, snd v = Some p /\ 0 <= p) vs.
Proof.
  induction calls as [|[[f t] h] cs IH]; intros H; simpl.
  { exists []. split; [reflexivity | split; [reflexivity | constructor]]. }
  destruct (H f t h (or_introl eq_refl)) as [p [Hp Hnn]]. rewrite Hp.
  destruct IH as [vs [Hvs [Hlen Hall]]]; [intros f' t' h' Hin; apply H; now right|].
  rewrite Hvs. exists ((f, t, h, Some p) :: vs). simpl. split; [reflexivity|].
  split; [now rewrite Hlen|]. constructor; [exists p; split; [reflexivity | exact Hnn] | exact Hall].
Qed.

Lemma test_calls_length (dff : list feature_row) :
  List.length (test_calls dff) = (3 * List.length (sample_routes dff))%nat.
Proof.
  unfold test_calls. induction (sample_routes dff) as [|[f t] l IH]; [reflexivity|].
  simpl. simpl in IH. rewrite IH. lia.
Qed.

(** The sample-prediction loop, run with the encoders fitted on
    [df_features] and the saved feature names and a model that returns
    a value for each row, never prints "No data found" nor raises: it
    makes three predictions (08:00, 14:00, 18:00) for each of the first
    five distinct origin/destination pairs, and each is a number >= 0. *)
Theorem sample_prediction_loop_total (df : list departure)
    (predict : list (list f64) -> list R) :
  (forall x, predict [x] <> []) ->
  exists X label_encoders vs,
    training_matrix (create_features df) = Some (X, label_encoders) /\
    sample_prediction_loop (create_features df) label_encoders
      Metadata.feature_columns predict = ([], inr vs) /\
    List.length vs = (3 * List.length (sample_routes (create_features df)))%nat /\
    Forall (fun v => exists p, snd v = Some p /\ 0 <= p) vs.
Proof.
  intros Hpred. set (dff := create_features df).
  destruct (encode_routes_spec (map fr_route dff)) as [codes [He Hcodes]].
  set (le := LabelEncoder.fit (map fr_route dff)) in *.
  destruct (run_calls_all_some dff [("route_encoder"%string, le)] Metadata.feature_columns
              predict (test_calls dff)) as [vs [Hrun [Hlen Hall]]].
  { intros f t h Hin. unfold test_calls in Hin.
    apply in_flat_map in Hin as [[f' t'] [Hft Hh]].
    apply in_map_iff in Hh as [h' [Heq _]]. injection Heq as <- <- <-.
    destruct (sample_routes_found dff f' t' Hft) as [r [rest Hf]].
    assert (Hr : In r dff) by (eapply filter_In; rewrite Hf; now left).
    destruct (index_of_In (fr_route r) (LabelEncoder.classes_ le)) as [c Hc].
    { apply fit_covers, in_map, Hr. }
    rewrite (sample_prediction_found _ _ _ _ _ _ _ _ _ Hf Hc).
    match goal with |- context [predict ?x] => destruct (predict x) as [|p ps] eqn:Ep end.
    - exfalso. eapply Hpred. exact Ep.
    - exists (Rmax 0 p). split; [reflexivity | apply Rmax_l]. }
  exists (map (fun '(r, c) => training_row r c) (combine dff codes)),
         [("route_encoder"%string, le)], vs.
  split; [unfold training_matrix; now rewrite He|].
  split; [exact Hrun|]. split; [rewrite Hlen; apply test_calls_length | exact Hall].
Qed.

Lemma sample_prediction_loop_total_witness :
  (forall x, (fun _ : list (list f64) => [1]) [x] <> []) /\
  exists X label_encoders vs,
    training_matrix (create_features [mk_departure "S1" "A" "B" 8%Z 5 0 0 0 0])
      = Some (X, label_encoders) /\
    sample_prediction_loop (create_features [mk_departure "S1" "A" "B" 8%Z 5 0 0 0 0])
      label_encoders Metadata.feature_columns (fun _ => [1]) = ([], inr vs) /\
    List.length vs = 3%nat.
Proof.
  assert (Hp : forall x, (fun _ : list (list f64) => [1]) [x] <> []) by (intros x; discriminate).
  split; [exact Hp|].
  destruct (sample_prediction_loop_total [mk_departure "S1" "A" "B" 8%Z 5 0 0 0 0]
              (fun _ => [1]) Hp) as [X [le [vs [H1 [H2 [H3 _]]]]]].
  exists X, le, vs. split; [exact H1|]. split; [exact H2|]. rewrite H3. reflexivity.
Defined.

(** ** Evaluation metrics *)

Module MetricFacts.

Import Features Evaluate.
Open Scope R_scope.

Definition diffs (y_true y_pred : list R) : list R :=
  map (fun '(a, b) => a - b) (combine y_true y_pred).

Lemma sq_errors_diffs (y_true y_pred : list R) :
  sq_errors y_true y_pred = map (fun d => d ^ 2) (diffs y_true y_pred).
Proof.
  unfold sq_errors, diffs. rewrite map_map. apply map_ext. now intros [a b].
Qed.

Lemma abs_errors_diffs (y_true y_pred : list R) :
  map (fun '(a, b) => Rabs (a - b)) (combine y_true y_pred)
  = map Rabs (diffs y_true y_pred).
Proof.
  unfold diffs. rewrite map_map. apply map_ext. now intros [a b].
Qed.

Lemma sum_nonneg (xs : list R) : Forall (fun x => 0 <= x) xs -> 0 <= sum xs.
Proof. induction 1; simpl; lra. Qed.

Lemma sum_sq_nonneg (xs : list R) : 0 <= sum (map (fun d => d ^ 2) xs).
Proof.
  apply sum_nonneg, Forall_forall. intros x Hx.
  apply in_map_iff in Hx as [d [<- _]]. nra.
Qed.

Lemma sum_abs_nonneg (xs : list R) : 0 <= sum (map Rabs xs).
Proof.
  apply sum_nonneg, Forall_forall. intros x Hx.
  apply in_map_iff in Hx as [d [<- _]]. apply Rabs_pos.
Qed.

(** Cauchy-Schwarz for the error vector. *)
Lemma sum_abs_sq_le (xs : list R) :
  sum (map Rabs xs) ^ 2 <= INR (List.length xs) * sum (map (fun d => d ^ 2) xs).
Proof.
  induction xs as [|a xs IH]; [simpl; lra|].
  change (sum (map Rabs (a :: xs))) with (Rabs a + sum (map Rabs xs)).
  change (sum (map (fun d => d ^ 2) (a :: xs))) with (a ^ 2 + sum (map (fun d => d ^ 2) xs)).
  change (List.length (a :: xs)) with (S (List.length xs)). rewrite S_INR.
  pose proof (sum_abs_nonneg xs) as HS. pose proof (sum_sq_nonneg xs) as HQ.
  pose proof (pos_INR (List.length xs)) as Hn.
  set (S := sum (map Rabs xs)) in *. set (Q := sum (map (fun d => d ^ 2) xs)) in *.
  set (n := INR (List.length xs)) in *.
  assert (Ha : Rabs a ^ 2 = a ^ 2) by apply pow2_abs.
  pose proof (Rabs_pos a) as Ha0.
  destruct (Req_dec n 0) as [Hn0|Hn0].
  - rewrite Hn0 in IH |- *. assert (S = 0) by nra. subst n. rewrite H. nra.
  - assert (Hgm : 2 * Rabs a * S <= n * a ^ 2 + Q).
    { assert (Hpos : 0 < n) by lra.
      apply (Rmult_le_reg_l n); [exact Hpos|].
      assert (Hsq : 0 <= (n * Rabs a - S) ^ 2) by apply pow2_ge_0.
      assert (H1 : n * (2 * Rabs a * S) <= n ^ 2 * Rabs a ^ 2 + S ^ 2) by nra.
      rewrite Ha in H1.
      replace (n * (n * a ^ 2 + Q)) with (n ^ 2 * a ^ 2 + n * Q) by ring. lra. }
    replace ((Rabs a + S) ^ 2) with (Rabs a ^ 2 + 2 * Rabs a * S + S ^ 2) by ring.
    rewrite Ha. nra.
Qed.

Lemma length_diffs (y_true y_pred : list R) :
  List.length y_true = List.length y_pred ->
  List.length (diffs y_true y_pred) = List.length y_true.
Proof.
  intros H. unfold diffs. rewrite length_map, length_combine, H. apply Nat.min_id.
Qed.

Lemma evaluate_model_inv predict X_test y_test res :
  evaluate_model predict X_test y_test = Some res ->
  List.length y_test = List.length (clamp (predict X_test)) /\
  List.length y_test <> 0%nat /\
  res = mk_eval_result (clamp (predict X_test))
          (sqrt (mean_squared_error y_test (clamp (predict X_test))))
          (mean_absolute_error y_test (clamp (predict X_test)))
          (r2_score y_test (clamp (predict X_test))).
Proof.
  unfold evaluate_model.
  destruct (Nat.eqb (List.length y_test) (List.length (clamp (predict X_test)))) eqn:E1,
           (Nat.eqb (List.length y_test) 0) eqn:E2; simpl; try discriminate.
  intros [= <-]. apply Nat.eqb_eq in E1. apply Nat.eqb_neq in E2. auto.
Qed.

Lemma mean_abs_le_rmse (y_true y_pred : list R) :
  List.length y_true = List.length y_pred -> List.length y_true <> 0%nat ->
  mean_absolute_error y_true y_pred <= sqrt (mean_squared_error y_true y_pred).
Proof.
  intros Hl Hn. unfold mean_absolute_error, mean_squared_error.
  rewrite abs_errors_diffs, sq_errors_diffs.
  pose proof (sum_abs_sq_le (diffs y_true y_pred)) as CS.
  rewrite length_diffs in CS by exact Hl.
  pose proof (sum_abs_nonneg (diffs y_true y_pred)) as HS.
  set (S := sum (map Rabs (diffs y_true y_pred))) in *.
  set (Q := sum (map (fun d => d ^ 2) (diffs y_true y_pred))) in *.
  assert (Hpos : 0 < INR (List.length y_true)) by (apply lt_0_INR; lia).
  set (n := INR (List.length y_true)) in *.
  rewrite <- (sqrt_pow2 (S / n)) by (unfold Rdiv; apply Rmult_le_pos; [lra | left; apply Rinv_0_lt_compat; lra]).
  apply sqrt_le_1_alt.
  replace ((S / n) ^ 2) with (S ^ 2 / n / n) by (field; lra).
  unfold Rdiv. apply Rmult_le_compat_r; [left; apply Rinv_0_lt_compat; exact Hpos|].
  apply (Rmult_le_reg_r n); [exact Hpos|].
  rewrite Rmult_assoc, Rinv_l by lra. lra.
Qed.

End MetricFacts.

Import MetricFacts.

Lemma sum_le_pointwise {A : Type} (f g : A -> R) (l : list A) :
  (forall x, In x l -> f x <= g x) -> sum (map f l) <= sum (map g l).
Proof.
  induction l as [|x l IH]; intros H; simpl; [lra|].
  apply Rplus_le_compat; [apply H; now left | apply IH; intros y Hy; apply H; now right].
Qed.

Lemma combine_clamp (y_true y_pred : list R) :
  combine y_true (clamp y_pred) = map (fun '(a, b) => (a, Rmax b 0)) (combine y_true y_pred).
Proof.
  revert y_pred. induction y_true as [|a ys IH]; intros [|b ps]; simpl; auto.
  now rewrite IH.
Qed.

Lemma clamp_closer (a b : R) : 0 <= a -> Rabs (a - Rmax b 0) <= Rabs (a - b).
Proof.
  intros Ha. unfold Rmax. destruct (Rle_dec b 0); [|lra].
  rewrite !Rabs_right; lra.
Qed.

Lemma r2_score_le_1 (y_true y_pred : list R) v :
  r2_score y_true y_pred = Some v -> v <= 1.
Proof.
  unfold r2_score.
  destruct (List.length y_true <? 2)%nat; [discriminate|]. cbv zeta.
  pose proof (sum_sq_nonneg (diffs y_true y_pred)) as Hnum.
  rewrite <- sq_errors_diffs in Hnum.
  pose proof (sum_sq_nonneg (map (fun a => a - sum y_true / INR (List.length y_true)) y_true)) as Hden.
  rewrite map_map in Hden.
  destruct (Req_dec_T _ 0) as [_|Hn0]; [intros [= <-]; lra|].
  destruct (Req_dec_T _ 0) as [_|Hd0]; [intros [= <-]; lra|].
  intros [= <-].
  match goal with |- 1 - ?a / ?b <= 1 =>
    assert (Hb : 0 <= b) by (apply sum_nonneg, Forall_forall; intros x Hx;
                             apply in_map_iff in Hx as [d [<- _]]; cbv beta; apply pow2_ge_0);
    assert (Hb' : 0 < b) by (destruct (Rle_lt_or_eq_dec _ _ Hb) as [?|E];
                             [assumption | symmetry in E; contradiction]);
    assert (0 <= a / b) by (unfold Rdiv; apply Rmult_le_pos;
                            [lra | left; apply Rinv_0_lt_compat; exact Hb'])
  end.
  lra.
Qed.


(** Whenever [evaluate_model] returns, RMSE and MAE are non-negative,
    MAE never exceeds RMSE, and R^2 (when defined) is at most 1. *)
Theorem evaluate_model_metric_bounds (predict : list (list f64) -> list R)
    (X_test : list (list f64)) (y_test : list R) (res : eval_result) :
  evaluate_model predict X_test y_test = Some res ->
  0 <= mae res /\ mae res <= rmse res /\ 0 <= rmse res /\
  (forall v, r2 res = Some v -> v <= 1).
Proof.
  intros H. apply evaluate_model_inv in H as [Hl [Hn ->]]. simpl.
  assert (Hpos : 0 < INR (List.length y_test)) by (apply lt_0_INR; lia).
  split.
  { unfold mean_absolute_error. rewrite abs_errors_diffs. unfold Rdiv.
    apply Rmult_le_pos; [apply sum_abs_nonneg | left; apply Rinv_0_lt_compat; exact Hpos]. }
  split; [apply mean_abs_le_rmse; assumption|].
  split; [apply sqrt_pos|]. apply r2_score_le_1.
Qed.

Lemma evaluate_model_metric_bounds_witness :
  exists res, evaluate_model (fun _ => [-1; 4]) [[]; []] [2; 3] = Some res /\
    mae res <= rmse res.
Proof.
  eexists. split; [reflexivity|].
  apply (evaluate_model_metric_bounds (fun _ => [-1; 4]) [[]; []] [2; 3]). reflexivity.
Defined.

(** With non-negative targets (delays), clamping the predictions at 0
    never increases MAE or RMSE over those of the raw model output. *)
Theorem evaluate_model_clamp_no_worse (predict : list (list f64) -> list R)
    (X_test : list (list f64)) (y_test : list R) (res : eval_result) :
  Forall (fun y => 0 <= y) y_test ->
  evaluate_model predict X_test y_test = Some res ->
  mae res <= mean_absolute_error y_test (predict X_test) /\
  rmse res <= sqrt (mean_squared_error y_test (predict X_test)).
Proof.
  intros Hy H. apply evaluate_model_inv in H as [Hl [Hn ->]]. simpl.
  assert (Hpos : 0 < INR (List.length y_test)) by (apply lt_0_INR; lia).
  assert (Hinv : 0 <= / INR (List.length y_test)) by (left; apply Rinv_0_lt_compat; exact Hpos).
  rewrite Forall_forall in Hy.
  assert (Hpt : forall x, In x (combine y_test (predict X_test)) ->
                 Rabs (fst x - Rmax (snd x) 0) <= Rabs (fst x - snd x)).
  { intros [a b] Hab. apply clamp_closer, Hy. eapply in_combine_l. exact Hab. }
  split.
  - unfold mean_absolute_error. rewrite combine_clamp, map_map. unfold Rdiv.
    apply Rmult_le_compat_r; [exact Hinv|].
    apply sum_le_pointwise. intros [a b] Hab. exact (Hpt (a, b) Hab).
  - apply sqrt_le_1_alt. unfold mean_squared_error, sq_errors.
    rewrite combine_clamp, map_map. unfold Rdiv.
    apply Rmult_le_compat_r; [exact Hinv|].
    apply sum_le_pointwise. intros [a b] Hab.
    rewrite <- (pow2_abs (a - Rmax b 0)), <- (pow2_abs (a - b)).
    pose proof (Hpt (a, b) Hab) as Hp. simpl in Hp.
    pose proof (Rabs_pos (a - Rmax b 0)). apply pow_incr. lra.
Qed.

Lemma evaluate_model_clamp_no_worse_witness :
  Forall (fun y => 0 <= y) [2; 3] /\
  exists res, evaluate_model (fun _ => [-1; 4]) [[]; []] [2; 3] = Some res /\
    mae res <= mean_absolute_error [2; 3] [-1; 4].
Proof.
  assert (Hy : Forall (fun y => 0 <= y) [2; 3]) by (repeat constructor; lra).
  split; [exact Hy|].
  eexists. split; [reflexivity|].
  apply (evaluate_model_clamp_no_worse (fun _ => [-1; 4]) [[]; []] [2; 3] _ Hy).
  reflexivity.
Defined.

(** ** More on the feature builder and the encoder *)

Lemma sum_bounds (lo hi : R) (xs : list R) :
  Forall (fun x => lo <= x <= hi) xs ->
  INR (List.length xs) * lo <= sum xs <= INR (List.length xs) * hi.
Proof.
  induction 1 as [|x xs Hx _ IH]; simpl sum; [simpl; lra|].
  change (List.length (x :: xs)) with (S (List.length xs)). rewrite S_INR. lra.
Qed.

Lemma sample_var_nonneg (xs : list R) (m : R) :
  0 <= sum (map (fun x => (x - m) ^ 2) xs).
Proof.
  apply sum_nonneg, Forall_forall. intros y Hy.
  apply in_map_iff in Hy as [d [<- _]]. apply pow2_ge_0.
Qed.

(** If every delay lies in [lo, hi], every row's route statistics are
    well defined and in range: the count is a whole number >= 1, the mean
    lies in [lo, hi], and the standard deviation is >= 0. *)
Theorem route_stats_bounds (df : list departure) (lo hi : R) :
  Forall (fun d => lo <= delay d <= hi) df ->
  Forall (fun r => exists n avg,
      (1 <= n)%nat /\ fr_route_count r = Some (INR n) /\
      fr_route_avg_delay r = Some avg /\ lo <= avg <= hi /\
      0 <= fr_route_std_delay r)
    (create_features df).
Proof.
  intros Hdf. pose proof (create_features_rows df) as Hrows.
  pose proof (create_features_dep df) as Hdep.
  rewrite Forall_forall in Hrows, Hdf |- *. intros r Hr.
  destruct (Hrows r Hr) as [Hroute [Havg [Hcount Hstd]]]. clear Hrows.
  assert (Hd : In (fr_dep r) df) by (rewrite <- Hdep; now apply in_map).
  set (xs := map delay (filter (fun d => String.eqb (route_of d) (fr_route r)) df)) in *.
  assert (Hin : In (delay (fr_dep r)) xs).
  { apply in_map, filter_In. split; [exact Hd|]. rewrite Hroute. apply String.eqb_refl. }
  assert (Hn : (1 <= List.length xs)%nat) by (destruct xs; [contradiction | simpl; lia]).
  assert (Hb : Forall (fun x => lo <= x <= hi) xs).
  { apply Forall_forall. intros x Hx. apply in_map_iff in Hx as [d [<- Hx]].
    apply filter_In in Hx as [Hx _]. now apply Hdf. }
  exists (List.length xs), (sum xs / INR (List.length xs)).
  split; [exact Hn|]. split; [exact Hcount|]. split; [exact Havg|]. split.
  - apply sum_bounds in Hb.
    assert (Hpos : 0 < INR (List.length xs)) by (apply lt_0_INR; lia).
    split; [apply Rmult_le_reg_r with (INR (List.length xs)); [exact Hpos|] ..];
      unfold Rdiv; rewrite Rmult_assoc, Rinv_l by lra; lra.
  - rewrite Hstd. destruct (List.length xs <=? 1)%nat; [lra | apply sqrt_pos].
Qed.

Lemma route_stats_bounds_witness :
  Forall (fun d => 0 <= delay d <= 10) [mk_departure "S1" "A" "B" 8%Z 5 0 0 0 0] /\
  Forall (fun r => exists n avg, (1 <= n)%nat /\ fr_route_count r = Some (INR n) /\
      fr_route_avg_delay r = Some avg /\ 0 <= avg <= 10 /\ 0 <= fr_route_std_delay r)
    (create_features [mk_departure "S1" "A" "B" 8%Z 5 0 0 0 0]).
Proof.
  assert (H : Forall (fun d => 0 <= delay d <= 10) [mk_departure "S1" "A" "B" 8%Z 5 0 0 0 0])
    by (repeat constructor; simpl; lra).
  split; [exact H | exact (route_stats_bounds _ 0 10 H)].
Defined.

(** Route statistics depend only on the route key [from + '_' + to]:
    two rows with the same key get the same mean, standard deviation and
    count, even when they come from different origin/destination pairs,
    as ("A_B", "C") and ("A", "B_C") do. *)
Theorem route_stats_by_key (df : list departure) :
  Forall (fun r1 => Forall (fun r2 =>
      fr_route r1 = fr_route r2 ->
      fr_route_avg_delay r1 = fr_route_avg_delay r2 /\
      fr_route_std_delay r1 = fr_route_std_delay r2 /\
      fr_route_count r1 = fr_route_count r2)
    (create_features df)) (create_features df) /\
  route_of (mk_departure "S1" "A_B" "C" 8%Z 5 0 0 0 0)
  = route_of (mk_departure "S2" "A" "B_C" 8%Z 7 0 0 0 0).
Proof.
  split; [|reflexivity].
  pose proof (create_features_rows df) as Hrows. rewrite Forall_forall in Hrows.
  apply Forall_forall. intros r1 H1. apply Forall_forall. intros r2 H2 Heq.
  destruct (Hrows r1 H1) as [_ [A1 [C1 S1]]]. destruct (Hrows r2 H2) as [_ [A2 [C2 S2]]].
  rewrite A1, A2, C1, C2, S1, S2, Heq. auto.
Qed.

(** [route_distance] is never negative, and it is 0 exactly when the
    origin and destination have the same coordinates. *)
Theorem route_distance_spec (df : list departure) :
  Forall (fun r =>
     0 <= fr_route_distance r /\
     (fr_route_distance r = 0 <->
        from_lat (fr_dep r) = to_lat (fr_dep r) /\ from_long (fr_dep r) = to_long (fr_dep r)))
    (create_features df).
Proof.
  apply create_features_Forall. intros d _.
  change (0 <= route_distance_of d /\ (route_distance_of d = 0 <->
    from_lat d = to_lat d /\ from_long d = to_long d)).
  unfold route_distance_of.
  set (q := (to_lat d - from_lat d) ^ 2 + (to_long d - from_long d) ^ 2).
  assert (Hq : 0 <= q)
    by (unfold q; apply Rplus_le_le_0_compat; apply pow2_ge_0).
  split; [apply Rmult_le_pos; [apply sqrt_pos | lra]|].
  split.
  - intros H. assert (Hs : sqrt q = 0) by lra.
    apply sqrt_eq_0 in Hs; [|exact Hq]. unfold q in Hs.
    pose proof (pow2_ge_0 (to_lat d - from_lat d)). pose proof (pow2_ge_0 (to_long d - from_long d)).
    assert (Ha : (to_lat d - from_lat d) ^ 2 = 0) by lra.
    assert (Hb : (to_long d - from_long d) ^ 2 = 0) by lra.
    destruct (Req_dec (to_lat d - from_lat d) 0) as [Ha'|Ha'];
      [|exfalso; exact (pow_nonzero _ 2 Ha' Ha)].
    destruct (Req_dec (to_long d - from_long d) 0) as [Hb'|Hb'];
      [|exfalso; exact (pow_nonzero _ 2 Hb' Hb)].
    split; lra.
  - intros [E1 E2]. unfold q. rewrite E1, E2.
    replace ((to_lat d - to_lat d) ^ 2 + (to_long d - to_long d) ^ 2) with 0 by ring.
    rewrite sqrt_0. ring.
Qed.

(** The fitted route encoder transforms a list of keys exactly when every
    key was seen during fitting; one unseen key makes [transform] fail
    (sklearn's [ValueError]). *)
Theorem encoder_rejects_unseen (ys ks : list string) :
  LabelEncoder.transform (LabelEncoder.fit ys) ks = None <->
  exists k, In k ks /\ ~ In k ys.
Proof.
  induction ks as [|k ks IH].
  - split; [discriminate | intros [k [[] _]]].
  - change (LabelEncoder.transform (LabelEncoder.fit ys) (k :: ks)) with
      (match LabelEncoder.index_of k (PyStr.unique ys),
             LabelEncoder.transform (LabelEncoder.fit ys) ks with
       | Some i, Some is => Some (i :: is)
       | _, _ => None
       end).
    destruct (LabelEncoder.index_of k (PyStr.unique ys)) as [i|] eqn:Ei.
    + destruct (LabelEncoder.transform (LabelEncoder.fit ys) ks) as [is|] eqn:Et.
      * split; [discriminate|]. intros [k' [[<-|Hk'] Hn]].
        -- exfalso. apply Hn. apply PyStrFacts.unique_In. eapply nth_error_In. apply index_of_nth_error. exact Ei.
        -- assert (Hnone : Some is = None) by (apply IH; eauto). discriminate.
      * split; [intros _|reflexivity].
        destruct (proj1 IH eq_refl) as [k' [Hk' Hn]]. exists k'. split; [right|]; assumption.
    + split; [intros _|reflexivity]. exists k. split; [now left|].
      intros Hk. apply PyStrFacts.unique_In, index_of_In in Hk as [i Hi]. congruence.
Qed.

Lemma sum_perm (xs ys : list R) : Permutation xs ys -> sum xs = sum ys.
Proof. induction 1; simpl; lra. Qed.

Lemma perm_filter {A} (f : A -> bool) (l l' : list A) :
  Permutation l l' -> Permutation (filter f l) (filter f l').
Proof.
  induction 1; simpl.
  - constructor.
  - destruct (f x); [constructor|]; assumption.
  - destruct (f x), (f y); try constructor; reflexivity.
  - eapply perm_trans; eassumption.
Qed.

(** The route statistics do not depend on the order of the input
    records: after any reordering of the departures, a row with a given
    route key gets the same mean, standard deviation and count as any row
    with that key before the reordering. *)
Theorem route_stats_order_invariant (df df' : list departure) :
  Permutation df df' ->
  Forall (fun r => Forall (fun r' =>
      fr_route r = fr_route r' ->
      fr_route_avg_delay r = fr_route_avg_delay r' /\
      fr_route_std_delay r = fr_route_std_delay r' /\
      fr_route_count r = fr_route_count r')
    (create_features df')) (create_features df).
Proof.
  intros Hp.
  pose proof (create_features_rows df) as H1. pose proof (create_features_rows df') as H2.
  rewrite Forall_forall in H1, H2.
  apply Forall_forall. intros r Hr. apply Forall_forall. intros r' Hr' Heq.
  destruct (H1 r Hr) as [_ [A1 [C1 S1]]]. destruct (H2 r' Hr') as [_ [A2 [C2 S2]]].
  rewrite A1, A2, C1, C2, S1, S2, <- Heq. clear A1 A2 C1 C2 S1 S2 H1 H2.
  assert (Hx : Permutation
      (map delay (filter (fun d => String.eqb (route_of d) (fr_route r)) df))
      (map delay (filter (fun d => String.eqb (route_of d) (fr_route r)) df')))
    by (apply Permutation_map, perm_filter, Hp).
  set (xs := map delay (filter (fun d => String.eqb (route_of d) (fr_route r)) df)) in *.
  set (ys := map delay (filter (fun d => String.eqb (route_of d) (fr_route r)) df')) in *.
  rewrite (sum_perm _ _ Hx), (Permutation_length Hx).
  rewrite (sum_perm _ _ (Permutation_map (fun x => (x - sum ys / INR (List.length ys)) ^ 2) Hx)).
  auto.
Qed.

Lemma route_stats_order_invariant_witness :
  Permutation [mk_departure "S1" "A" "B" 8%Z 5 0 0 0 0; mk_departure "S2" "A" "B" 9%Z 7 0 0 0 0] [mk_departure "S2" "A" "B" 9%Z 7 0 0 0 0; mk_departure "S1" "A" "B" 8%Z 5 0 0 0 0] /\
  Forall (fun r => Forall (fun r' =>
      fr_route r = fr_route r' ->
      fr_route_avg_delay r = fr_route_avg_delay r' /\
      fr_route_std_delay r = fr_route_std_delay r' /\
      fr_route_count r = fr_route_count r')
    (create_features [mk_departure "S2" "A" "B" 9%Z 7 0 0 0 0; mk_departure "S1" "A" "B" 8%Z 5 0 0 0 0])) (create_features [mk_departure "S1" "A" "B" 8%Z 5 0 0 0 0; mk_departure "S2" "A" "B" 9%Z 7 0 0 0 0]).
Proof.
  assert (Hp : Permutation [mk_departure "S1" "A" "B" 8%Z 5 0 0 0 0; mk_departure "S2" "A" "B" 9%Z 7 0 0 0 0] [mk_departure "S2" "A" "B" 9%Z 7 0 0 0 0; mk_departure "S1" "A" "B" 8%Z 5 0 0 0 0]) by constructor.
  split; [exact Hp | exact (route_stats_order_invariant _ _ Hp)].
Defined.

Lemma clamp_nonneg_id (ys : list R) : Forall (fun y => 0 <= y) ys -> clamp ys = ys.
Proof.
  induction 1 as [|y ys Hy _ IH]; [reflexivity|].
  unfold clamp in *. simpl. rewrite IH, Rmax_left by lra. reflexivity.
Qed.

Lemma sq_errors_self (ys : list R) : sum (sq_errors ys ys) = 0.
Proof.
  induction ys as [|y ys IH]; [reflexivity|].
  change (sum (sq_errors (y :: ys) (y :: ys))) with ((y - y) ^ 2 + sum (sq_errors ys ys)).
  rewrite IH. ring.
Qed.

Lemma abs_errors_self (ys : list R) :
  sum (map (fun '(a, b) => Rabs (a - b)) (combine ys ys)) = 0.
Proof.
  induction ys as [|y ys IH]; [reflexivity|]. simpl. rewrite IH.
  replace (y - y) with 0 by ring. rewrite Rabs_R0. ring.
Qed.

(** A model that predicts every non-negative target exactly gets
    RMSE = 0 and MAE = 0, its predictions are returned unchanged, and its
    R^2 is 1, or NaN when the test set has a single sample. *)
Theorem evaluate_model_perfect (predict : list (list f64) -> list R)
    (X_test : list (list f64)) (y_test : list R) :
  predict X_test = y_test -> y_test <> [] -> Forall (fun y => 0 <= y) y_test ->
  evaluate_model predict X_test y_test =
  Some (mk_eval_result y_test 0 0
          (if (List.length y_test <? 2)%nat then None else Some 1)).
Proof.
  intros Hp Hne Hy. unfold evaluate_model. rewrite Hp, (clamp_nonneg_id _ Hy), Nat.eqb_refl.
  destruct y_test as [|y ys]; [contradiction|]. cbn [negb orb List.length Nat.eqb].
  unfold mean_squared_error, mean_absolute_error, r2_score.
  rewrite sq_errors_self, abs_errors_self.
  unfold Rdiv. rewrite !Rmult_0_l, sqrt_0.
  change (List.length (y :: ys)) with (S (List.length ys)).
  destruct (S (List.length ys) <? 2)%nat; [reflexivity|].
  destruct (Req_dec_T 0 0); [reflexivity | contradiction].
Qed.

Lemma evaluate_model_perfect_witness :
  (fun _ : list (list f64) => [2; 3]) [[]; []] = [2; 3] /\ [2; 3] <> [] /\
  Forall (fun y => 0 <= y) [2; 3] /\
  evaluate_model (fun _ => [2; 3]) [[]; []] [2; 3] =
  Some (mk_eval_result [2; 3] 0 0 (if (List.length [2; 3] <? 2)%nat then None else Some 1)).
Proof.
  assert (H1 : (fun _ : list (list f64) => [2; 3]) [[]; []] = [2; 3]) by reflexivity.
  assert (H2 : [2; 3] <> []) by discriminate.
  assert (H3 : Forall (fun y => 0 <= y) [2; 3]) by (repeat constructor; lra).
  split; [exact H1|]. split; [exact H2|]. split; [exact H3|].
  exact (evaluate_model_perfect (fun _ => [2; 3]) [[]; []] [2; 3] H1 H2 H3).
Defined.
